(** * Optimizer visualization: the optimizer core and its trajectory driver

    A shallow embedding of [lib/optimizers.ts] (gradient estimator and the four
    update rules), of the quadratic-bowl preset of [lib/loss-functions.ts] and
    of the trajectory handlers of the [OptimizerVisualization] page component,
    followed by the properties of the specification that concern them.

    JavaScript's [number] is kept abstract behind two interfaces, so that one
    definition of every function serves both the IEEE 754 binary64 numbers the
    program runs on and the exact arithmetic some statements are phrased in. *)

From Stdlib Require Import ZArith QArith List String Bool Lia.
From Stdlib Require Import Floats Uint63.
From Stdlib Require Import Reals Lra.
Import ListNotations.

Set Implicit Arguments.

Close Scope Q_scope.
Close Scope R_scope.
Open Scope string_scope.
Open Scope list_scope.

(* ------------------------------------------------------------------------- *)
(** ** Numbers *)

Declare Scope js_scope.
Delimit Scope js_scope with js.

Module Numbers.

(** The four arithmetic operators and numeric literals.  A literal is given
    by the rational it denotes. *)
Class Arith (F : Type) : Type := {
  add : F -> F -> F;
  sub : F -> F -> F;
  mul : F -> F -> F;
  div : F -> F -> F;
  lit : Q -> F
}.

(** The rest of what the program asks of a [number]: the comparison [<]
    ([a > b] is [b < a]), the global [isFinite], and the [Math] functions it
    calls.  The operator [**] is [Math.pow]. *)
Class Number (F : Type) : Type := {
  Number_Arith :: Arith F;
  ltb : F -> F -> bool;
  isFinite : F -> bool;
  Math_sqrt : F -> F;
  Math_abs : F -> F;
  Math_pow : F -> F -> F;
  Math_min : F -> F -> F;
  Math_max : F -> F -> F
}.

Definition gtb {F} `{Number F} (a b : F) : bool := ltb b a.

(** [a ?? d]: the nullish-coalescing operator on an optional field. *)
Definition nullish {F} (a : option F) (d : F) : F :=
  match a with
  | Some v => v
  | None => d
  end.

End Numbers.

Export Numbers.

Notation "a + b" := (add a b) : js_scope.
Notation "a - b" := (sub a b) : js_scope.
Notation "a * b" := (mul a b) : js_scope.
Notation "a / b" := (div a b) : js_scope.
Notation "a <? b" := (ltb a b) : js_scope.
Notation "a >? b" := (gtb a b) : js_scope.
Notation "a ?? d" := (nullish a d) (at level 45, left associativity) : js_scope.
Notation "# q" := (lit q%Q) (at level 1, q at level 0, format "# q") : js_scope.

(** *** The binary64 numbers of the runtime *)

Module Binary64.

Local Open Scope float_scope.

Definition of_Z (z : Z) : float :=
  match z with
  | Z0 => zero
  | Zpos p => of_uint63 (Uint63.of_pos p)
  | Zneg p => - of_uint63 (Uint63.of_pos p)
  end.

(** A decimal literal whose numerator and denominator are below 2^53 (all of
    the program's are) is the correctly rounded quotient of two exactly
    represented integers, that is, the double nearest to the literal. *)
Definition of_Q (q : Q) : float := of_Z (Qnum q) / of_Z (Zpos (Qden q)).

(** [Math.max] and [Math.min]: NaN when an argument is NaN, and [-0] below
    [+0]. *)
Definition max (a b : float) : float :=
  if is_nan a || is_nan b then nan
  else if a <? b then b
  else if b <? a then a
  else if get_sign a then b else a.

Definition min (a b : float) : float :=
  if is_nan a || is_nan b then nan
  else if a <? b then a
  else if b <? a then b
  else if get_sign a then a else b.

(** The value of a float that is a natural number. *)
Definition to_N (e : float) : option N :=
  match Prim2SF e with
  | S754_zero _ => Some 0%N
  | S754_finite false m ex =>
      match ex with
      | Z0 => Some (Npos m)
      | Zpos k => Some (N.shiftl (Npos m) (Npos k))
      | Zneg k =>
          if N.eqb (N.land (Npos m) (N.ones (Npos k))) 0
          then Some (N.shiftr (Npos m) (Npos k))
          else None
      end
  | _ => None
  end.

(** ECMAScript leaves [Math.pow] implementation-approximated, so the
    instance below takes it as a parameter.  [powi] is the member of that
    family used to evaluate runs: a natural exponent (the program passes the
    Adam timestep and the literal 2) multiplies the base that many times,
    which is exact at exponents 0 and 1 and correctly rounded at 2; any other
    exponent yields NaN. *)
Definition powi (b e : float) : float :=
  match to_N e with
  | Some n => N.iter n (fun acc => acc * b) one
  | None => nan
  end.

#[global] Instance arith : Arith float := {|
  add := PrimFloat.add;
  sub := PrimFloat.sub;
  mul := PrimFloat.mul;
  div := PrimFloat.div;
  lit := of_Q
|}.

Definition number (pow : float -> float -> float) : Number float := {|
  Number_Arith := arith;
  ltb := PrimFloat.ltb;
  isFinite := is_finite;
  Math_sqrt := PrimFloat.sqrt;
  Math_abs := PrimFloat.abs;
  Math_pow := pow;
  Math_min := min;
  Math_max := max
|}.

Definition js : Number float := number powi.

(** The shapes of the specification-level floats behind the primitive
    ones. *)
Definition sf_nan (s : spec_float) : bool :=
  match s with
  | S754_nan => true
  | _ => false
  end.

Definition sf_finite (s : spec_float) : bool :=
  match s with
  | S754_zero _ | S754_finite _ _ _ => true
  | S754_infinity _ | S754_nan => false
  end.

(** The display interval [-50, 50]. *)
Definition inDisplayRange (z : float) : bool := (-50 <=? z) && (z <=? 50).

End Binary64.

(** *** Exact arithmetic *)

Module Exact.

#[global] Instance arith : Arith R := {|
  add := Rplus;
  sub := Rminus;
  mul := Rmult;
  div := Rdiv;
  lit := Q2R
|}.

End Exact.

(* ------------------------------------------------------------------------- *)
(** ** lib/optimizers.ts *)

Module Optimizers.

(** [OptimizerType] is a union of four string literals to the type checker
    only: at run time the tag is whatever string a configuration holds. *)
Definition OptimizerType := string.

(** The four tags the union names (the keys of [defaultParams], the items of
    the algorithm selector). *)
Inductive Algorithm : Type := SGD | Momentum | RMSProp | Adam.

Definition tag (a : Algorithm) : OptimizerType :=
  match a with
  | SGD => "sgd"
  | Momentum => "momentum"
  | RMSProp => "rmsprop"
  | Adam => "adam"
  end.

Record OptimizerState (F : Type) : Type := {
  x : F;
  y : F;
  vx : option F;   (* velocity x (momentum, adam) *)
  vy : option F;   (* velocity y (momentum, adam) *)
  sx : option F;   (* squared gradient cache x (rmsprop, adam) *)
  sy : option F;   (* squared gradient cache y (rmsprop, adam) *)
  t : option F     (* timestep (adam) *)
}.

Record OptimizerParams (F : Type) : Type := {
  learningRate : F;
  momentum : option F;   (* for momentum *)
  rho : option F;        (* for rmsprop *)
  beta1 : option F;      (* for adam *)
  beta2 : option F;      (* for adam *)
  epsilon : option F     (* for rmsprop, adam *)
}.

Record Gradient (F : Type) : Type := {
  gradX : F;
  gradY : F
}.

Module Step.
Record OptimizerStep (F : Type) : Type := {
  x : F;
  y : F;
  z : F;
  gradX : F;
  gradY : F;
  gradNorm : F;
  step : nat
}.
End Step.

Local Open Scope js_scope.

Section Estimator.
Context {F : Type} `{Arith F}.

(** Compute gradient using central differences.  [h] is the optional
    fourth argument, [1e-5] when left out. *)
Definition computeGradient (f : F -> F -> F) (x y : F) (h : option F) : Gradient F :=
  let h := h ?? #1e-5 in
  let gradX := (f (x + h) y - f (x - h) y) / (#2 * h) in
  let gradY := (f x (y + h) - f x (y - h)) / (#2 * h) in
  {| gradX := gradX; gradY := gradY |}.

(** SGD optimizer *)
Definition sgdStep (state : OptimizerState F) (gradient : Gradient F)
           (params : OptimizerParams F) : OptimizerState F :=
  {| x := x state - learningRate params * gradX gradient;
     y := y state - learningRate params * gradY gradient;
     vx := None; vy := None; sx := None; sy := None; t := None |}.

(** Momentum optimizer *)
Definition momentumStep (state : OptimizerState F) (gradient : Gradient F)
           (params : OptimizerParams F) : OptimizerState F :=
  let momentum := momentum params ?? #0.9 in
  let vx := momentum * (vx state ?? #0) + learningRate params * gradX gradient in
  let vy := momentum * (vy state ?? #0) + learningRate params * gradY gradient in
  {| x := x state - vx;
     y := y state - vy;
     vx := Some vx; vy := Some vy;
     sx := None; sy := None; t := None |}.

Definition mkParams (lr : F) (momentum rho beta1 beta2 epsilon : option F) : OptimizerParams F :=
  {| learningRate := lr; momentum := momentum; rho := rho;
     beta1 := beta1; beta2 := beta2; epsilon := epsilon |}.

(** [defaultParams] is an object with exactly the four keys below. *)
Definition defaultParams (type : Algorithm) : OptimizerParams F :=
  match type with
  | SGD => mkParams #0.1 None None None None None
  | Momentum => mkParams #0.1 (Some #0.9) None None None None
  | RMSProp => mkParams #0.01 None (Some #0.9) None None (Some #1e-8)
  | Adam => mkParams #0.1 None None (Some #0.9) (Some #0.999) (Some #1e-8)
  end.

End Estimator.

Section Rules.
Context {F : Type} `{Number F}.

(** RMSProp optimizer *)
Definition rmspropStep (state : OptimizerState F) (gradient : Gradient F)
           (params : OptimizerParams F) : OptimizerState F :=
  let rho := rho params ?? #0.9 in
  let epsilon := epsilon params ?? #1e-8 in
  let sx := rho * (sx state ?? #0) + (#1 - rho) * gradX gradient * gradX gradient in
  let sy := rho * (sy state ?? #0) + (#1 - rho) * gradY gradient * gradY gradient in
  {| x := x state - (learningRate params * gradX gradient) / (Math_sqrt sx + epsilon);
     y := y state - (learningRate params * gradY gradient) / (Math_sqrt sy + epsilon);
     vx := None; vy := None;
     sx := Some sx; sy := Some sy;
     t := None |}.

(** Adam optimizer *)
Definition adamStep (state : OptimizerState F) (gradient : Gradient F)
           (params : OptimizerParams F) : OptimizerState F :=
  let beta1 := beta1 params ?? #0.9 in
  let beta2 := beta2 params ?? #0.999 in
  let epsilon := epsilon params ?? #1e-8 in
  let t := (t state ?? #0) + #1 in
  (* Update biased first moment estimate *)
  let vx := beta1 * (vx state ?? #0) + (#1 - beta1) * gradX gradient in
  let vy := beta1 * (vy state ?? #0) + (#1 - beta1) * gradY gradient in
  (* Update biased second raw moment estimate *)
  let sx := beta2 * (sx state ?? #0) + (#1 - beta2) * gradX gradient * gradX gradient in
  let sy := beta2 * (sy state ?? #0) + (#1 - beta2) * gradY gradient * gradY gradient in
  (* Compute bias-corrected estimates *)
  let vxCorrected := vx / (#1 - Math_pow beta1 t) in
  let vyCorrected := vy / (#1 - Math_pow beta2 t) in
  let sxCorrected := sx / (#1 - Math_pow beta2 t) in
  let syCorrected := sy / (#1 - Math_pow beta2 t) in
  {| x := x state - (learningRate params * vxCorrected) / (Math_sqrt sxCorrected + epsilon);
     y := y state - (learningRate params * vyCorrected) / (Math_sqrt syCorrected + epsilon);
     vx := Some vx; vy := Some vy;
     sx := Some sx; sy := Some sy;
     t := Some t |}.

(** The Adam rule as the specification words it, for comparison with
    [adamStep]: on each axis the first moment is corrected by [1 - beta1^t']
    and the second moment by [1 - beta2^t']. *)
Definition adamAxis_spec (beta1 beta2 epsilon lr t' : F) (p : F) (v s : option F) (g : F)
  : F * F * F :=
  let v' := beta1 * (v ?? #0) + (#1 - beta1) * g in
  let s' := beta2 * (s ?? #0) + (#1 - beta2) * g * g in
  let vHat := v' / (#1 - Math_pow beta1 t') in
  let sHat := s' / (#1 - Math_pow beta2 t') in
  (p - (lr * vHat) / (Math_sqrt sHat + epsilon), v', s').

Definition adamStep_spec (state : OptimizerState F) (gradient : Gradient F)
           (params : OptimizerParams F) : OptimizerState F :=
  let beta1 := beta1 params ?? #0.9 in
  let beta2 := beta2 params ?? #0.999 in
  let epsilon := epsilon params ?? #1e-8 in
  let t' := (t state ?? #0) + #1 in
  let '(x', vx', sx') :=
    adamAxis_spec beta1 beta2 epsilon (learningRate params) t'
                  (x state) (vx state) (sx state) (gradX gradient) in
  let '(y', vy', sy') :=
    adamAxis_spec beta1 beta2 epsilon (learningRate params) t'
                  (y state) (vy state) (sy state) (gradY gradient) in
  {| x := x'; y := y'; vx := Some vx'; vy := Some vy';
     sx := Some sx'; sy := Some sy'; t := Some t' |}.

Definition optimizerStep (type : OptimizerType) (state : OptimizerState F)
           (gradient : Gradient F) (params : OptimizerParams F) : OptimizerState F :=
  if String.eqb type "sgd" then sgdStep state gradient params
  else if String.eqb type "momentum" then momentumStep state gradient params
  else if String.eqb type "rmsprop" then rmspropStep state gradient params
  else if String.eqb type "adam" then adamStep state gradient params
  else sgdStep state gradient params.

End Rules.

End Optimizers.

(* ------------------------------------------------------------------------- *)
(** ** lib/loss-functions.ts *)

Module LossFunctions.

Record LossFunction (F : Type) : Type := {
  name : string;
  expression : string;
  fn : F -> F -> F;
  range : (F * F) * (F * F);
  suggestedStart : F * F
}.

Local Open Scope js_scope.

(** The first preset, [presetFunctions[0]]. *)
Definition QuadraticBowl {F : Type} `{Arith F} : LossFunction F :=
  {| name := "Quadratic Bowl";
     expression := "x^2 + y^2";
     fn := fun x y => x * x + y * y;
     range := ((#(-3), #3), (#(-3), #3));
     suggestedStart := (#2.5, #2.5) |}.

End LossFunctions.

(* ------------------------------------------------------------------------- *)
(** ** The page component [OptimizerVisualization]

    The component's state that the trajectory handlers read and write, as one
    record: the [useState] cells and the [optimizerStateRef] ref.  Every
    handler is a function from the state it is invoked on to the state after
    it; a handler is taken to run on the state of the latest render. *)

Module Page.

Import Optimizers LossFunctions.
Local Open Scope js_scope.

Section Handlers.
Context {F : Type} `{Number F}.

Record Driver : Type := {
  currentFunction : LossFunction F;
  optimizerType : OptimizerType;
  optimizerParams : OptimizerParams F;
  startX : F;
  startY : F;
  isRunning : bool;
  path : list (Step.OptimizerStep F);
  currentStepIndex : Z;
  optimizerStateRef : option (OptimizerState F)
}.

Definition setIsRunning (b : bool) (d : Driver) : Driver :=
  {| currentFunction := currentFunction d; optimizerType := optimizerType d;
     optimizerParams := optimizerParams d; startX := startX d; startY := startY d;
     isRunning := b;
     path := path d; currentStepIndex := currentStepIndex d;
     optimizerStateRef := optimizerStateRef d |}.

Definition setOptimizerType (type : OptimizerType) (d : Driver) : Driver :=
  {| currentFunction := currentFunction d;
     optimizerType := type;
     optimizerParams := optimizerParams d; startX := startX d; startY := startY d;
     isRunning := isRunning d; path := path d;
     currentStepIndex := currentStepIndex d;
     optimizerStateRef := optimizerStateRef d |}.

Definition setOptimizerParams (params : OptimizerParams F) (d : Driver) : Driver :=
  {| currentFunction := currentFunction d; optimizerType := optimizerType d;
     optimizerParams := params;
     startX := startX d; startY := startY d;
     isRunning := isRunning d; path := path d;
     currentStepIndex := currentStepIndex d;
     optimizerStateRef := optimizerStateRef d |}.

Definition setStartX (v : F) (d : Driver) : Driver :=
  {| currentFunction := currentFunction d; optimizerType := optimizerType d;
     optimizerParams := optimizerParams d;
     startX := v; startY := startY d;
     isRunning := isRunning d; path := path d;
     currentStepIndex := currentStepIndex d;
     optimizerStateRef := optimizerStateRef d |}.

Definition setStartY (v : F) (d : Driver) : Driver :=
  {| currentFunction := currentFunction d; optimizerType := optimizerType d;
     optimizerParams := optimizerParams d;
     startX := startX d; startY := v;
     isRunning := isRunning d; path := path d;
     currentStepIndex := currentStepIndex d;
     optimizerStateRef := optimizerStateRef d |}.

(** The state of the first render. *)
Definition initial : Driver :=
  {| currentFunction := QuadraticBowl;
     optimizerType := "adam";
     optimizerParams := defaultParams Adam;
     startX := #2.5; startY := #2.5;
     isRunning := false;
     path := [];
     currentStepIndex := (-1)%Z;
     optimizerStateRef := None |}.

(** Initialize path *)
Definition initializePath (d : Driver) : Driver :=
  let z := fn (currentFunction d) (startX d) (startY d) in
  let g := computeGradient (fn (currentFunction d)) (startX d) (startY d) None in
  let gradNorm := Math_sqrt (gradX g * gradX g + gradY g * gradY g) in
  let initialStep :=
    {| Step.x := startX d;
       Step.y := startY d;
       Step.z := if isFinite z then z else #0;
       Step.gradX := gradX g;
       Step.gradY := gradY g;
       Step.gradNorm := gradNorm;
       Step.step := 0 |} in
  {| currentFunction := currentFunction d; optimizerType := optimizerType d;
     optimizerParams := optimizerParams d; startX := startX d; startY := startY d;
     isRunning := isRunning d;
     path := [initialStep];
     currentStepIndex := 0%Z;
     optimizerStateRef :=
       Some {| x := startX d; y := startY d;
               vx := None; vy := None; sx := None; sy := None; t := None |} |}.

(** Perform one optimization step *)
Definition performStep (d : Driver) : Driver :=
  match optimizerStateRef d with
  | None => initializePath d
  | Some state =>
    let g := computeGradient (fn (currentFunction d)) (x state) (y state) None in
    (* Check for convergence or divergence *)
    let gradNorm := Math_sqrt (gradX g * gradX g + gradY g * gradY g) in
    if (gradNorm <? #1e-6) || negb (isFinite gradNorm) then setIsRunning false d
    else
      let newState :=
        optimizerStep (optimizerType d) state
                      {| gradX := gradX g; gradY := gradY g |} (optimizerParams d) in
      (* Check bounds *)
      if (Math_abs (x newState) >? #100) || (Math_abs (y newState) >? #100)
         || negb (isFinite (x newState)) || negb (isFinite (y newState))
      then setIsRunning false d
      else
        let z := fn (currentFunction d) (x newState) (y newState) in
        let newGrad :=
          computeGradient (fn (currentFunction d)) (x newState) (y newState) None in
        let newStep :=
          {| Step.x := x newState;
             Step.y := y newState;
             Step.z := if isFinite z then Math_min (Math_max z #(-50)) #50 else #0;
             Step.gradX := gradX newGrad;
             Step.gradY := gradY newGrad;
             Step.gradNorm :=
               Math_sqrt (Math_pow (gradX newGrad) #2 + Math_pow (gradY newGrad) #2);
             Step.step := List.length (path d) |} in
        {| currentFunction := currentFunction d; optimizerType := optimizerType d;
           optimizerParams := optimizerParams d; startX := startX d; startY := startY d;
           isRunning := isRunning d;
           path := path d ++ [newStep];
           currentStepIndex := (currentStepIndex d + 1)%Z;
           optimizerStateRef := Some newState |}
  end.

(** Control handlers *)
Definition handleStart (d : Driver) : Driver :=
  setIsRunning true
    (match path d with
     | [] => initializePath d
     | _ :: _ => d
     end).

Definition handlePause (d : Driver) : Driver := setIsRunning false d.

Definition handleStep (d : Driver) : Driver :=
  match path d with
  | [] => initializePath d
  | _ :: _ => performStep d
  end.

Definition handleReset (d : Driver) : Driver :=
  {| currentFunction := currentFunction d; optimizerType := optimizerType d;
     optimizerParams := optimizerParams d; startX := startX d; startY := startY d;
     isRunning := false;
     path := [];
     currentStepIndex := (-1)%Z;
     optimizerStateRef := None |}.

(** The [onStartXChange] and [onStartYChange] props handed to the panel. *)
Definition onStartXChange (v : F) (d : Driver) : Driver := handleReset (setStartX v d).

Definition onStartYChange (v : F) (d : Driver) : Driver := handleReset (setStartY v d).

(** The algorithm selector of the control panel: its [onValueChange] calls
    the props [onOptimizerTypeChange] and [onOptimizerParamsChange], which the
    page binds to [setOptimizerType] and [setOptimizerParams]. *)
Definition onValueChange (v : Algorithm) (d : Driver) : Driver :=
  setOptimizerParams (defaultParams v) (setOptimizerType (tag v) d).

(** The quantities [performStep] computes on its way, by name. *)
Definition gradientAt (d : Driver) (state : OptimizerState F) : Gradient F :=
  computeGradient (fn (currentFunction d)) (x state) (y state) None.

Definition normOf (g : Gradient F) : F :=
  Math_sqrt (gradX g * gradX g + gradY g * gradY g).

Definition converged (d : Driver) (state : OptimizerState F) : bool :=
  (normOf (gradientAt d state) <? #1e-6) || negb (isFinite (normOf (gradientAt d state))).

Definition candidate (d : Driver) (state : OptimizerState F) : OptimizerState F :=
  optimizerStep (optimizerType d) state (gradientAt d state) (optimizerParams d).

Definition outOfBounds (s : OptimizerState F) : bool :=
  (Math_abs (x s) >? #100) || (Math_abs (y s) >? #100)
  || negb (isFinite (x s)) || negb (isFinite (y s)).

Definition clampZ (z : F) : F :=
  if isFinite z then Math_min (Math_max z #(-50)) #50 else #0.

Definition recordAt (d : Driver) (s : OptimizerState F) : Step.OptimizerStep F :=
  let newGrad := computeGradient (fn (currentFunction d)) (x s) (y s) None in
  {| Step.x := x s;
     Step.y := y s;
     Step.z := clampZ (fn (currentFunction d) (x s) (y s));
     Step.gradX := gradX newGrad;
     Step.gradY := gradY newGrad;
     Step.gradNorm :=
       Math_sqrt (Math_pow (gradX newGrad) #2 + Math_pow (gradY newGrad) #2);
     Step.step := List.length (path d) |}.

(** The three outcomes of a step. *)
Inductive StepOutcome (d : Driver) (state : OptimizerState F) : Driver -> Prop :=
| Converged :
    converged d state = true ->
    StepOutcome d state (setIsRunning false d)
| Diverged :
    converged d state = false ->
    outOfBounds (candidate d state) = true ->
    StepOutcome d state (setIsRunning false d)
| Advanced :
    converged d state = false ->
    outOfBounds (candidate d state) = false ->
    forall d',
      path d' = path d ++ [recordAt d (candidate d state)] ->
      optimizerStateRef d' = Some (candidate d state) ->
      isRunning d' = isRunning d ->
      StepOutcome d state d'.

(** A trajectory whose records carry their own positions. *)
Definition indexed (l : list (Step.OptimizerStep F)) : Prop :=
  map (@Step.step F) l = seq 0 (List.length l).

(** The value [initializePath] stores as the [z] of the first record. *)
Definition initialZ (d : Driver) : F :=
  let z := fn (currentFunction d) (startX d) (startY d) in
  if isFinite z then z else #0.

(** The first record of a trajectory is the one [initializePath] made for the
    current start point, and a trajectory is empty only while the live state
    is. *)
Definition headInitial (d : Driver) : Prop :=
  match path d with
  | [] => optimizerStateRef d = None
  | r0 :: _ => Step.z r0 = initialZ d
  end.

(** Every record after the first carries the clamped value of the surface at
    its own position. *)
Definition tailClamped (d : Driver) : Prop :=
  Forall (fun r => Step.z r = clampZ (fn (currentFunction d) (Step.x r) (Step.y r)))
         (tl (path d)).

(** What the user and the animation loop can do to the component. *)
Inductive Action : Type :=
| Tick                                  (* the animation loop calls performStep *)
| ClickStart
| ClickPause
| ClickStep
| ClickReset
| SelectAlgorithm (v : Algorithm)
| ChangeParams (params : OptimizerParams F)
| ChangeStartX (v : F)
| ChangeStartY (v : F).

Definition act (a : Action) (d : Driver) : Driver :=
  match a with
  | Tick => performStep d
  | ClickStart => handleStart d
  | ClickPause => handlePause d
  | ClickStep => handleStep d
  | ClickReset => handleReset d
  | SelectAlgorithm v => onValueChange v d
  | ChangeParams params => setOptimizerParams params d
  | ChangeStartX v => onStartXChange v d
  | ChangeStartY v => onStartYChange v d
  end.

Definition run (d : Driver) (l : list Action) : Driver :=
  fold_left (fun d a => act a d) l d.

End Handlers.

Arguments Driver F : clear implicits.
Arguments Action F : clear implicits.
Arguments StepOutcome {F} {_} d state _.

End Page.

(* ------------------------------------------------------------------------- *)
(** ** Concrete runs on binary64 *)

Module Runs.

Import Optimizers LossFunctions Page.

Definition number64 : Number float := Binary64.js.

(** The page as first rendered: quadratic bowl, Adam with its defaults,
    start point (2.5, 2.5). *)
Definition page0 : Driver float := @initial float number64.

Definition fresh (px py : float) : OptimizerState float :=
  {| x := px; y := py; vx := None; vy := None; sx := None; sy := None; t := None |}.

(** Plain descent with a learning rate of 100 on the bowl. *)
Definition steep : Driver float :=
  @initializePath float number64
    (setOptimizerParams (mkParams (F:=float) 100%float None None None None None)
       (@onValueChange float number64 SGD page0)).

(** A surface that is NaN everywhere, as [createLossFunction] returns for an
    expression that does not compile. *)
Definition undefinedSurface : LossFunction float :=
  {| name := "Custom"; expression := "?";
     fn := fun _ _ => nan;
     range := ((-5, 5), (-5, 5))%float;
     suggestedStart := (2, 2)%float |}.

(** The first render, initialized. *)
Definition ready : Driver float := @initializePath float number64 page0.

Definition play (l : list (Action float)) : Driver float := @run float number64 ready l.

(** The bowl started at (10, 10), where it is 200 high. *)
Definition high : Driver float :=
  @initializePath float number64
    (onStartYChange 10%float (onStartXChange 10%float page0)).

(** The same page over the surface that is NaN everywhere. *)
Definition blank : Driver float :=
  {| currentFunction := undefinedSurface;
     optimizerType := optimizerType page0;
     optimizerParams := optimizerParams page0;
     startX := startX page0; startY := startY page0;
     isRunning := false; path := [];
     currentStepIndex := (-1)%Z;
     optimizerStateRef := None |}.

(** The live state of a component, or a fresh state at the origin when it has
    none. *)
Definition live (d : Driver float) : OptimizerState float :=
  match optimizerStateRef d with
  | Some s => s
  | None => fresh 0 0
  end.

End Runs.

(* ------------------------------------------------------------------------- *)
(** ** More of lib/loss-functions.ts *)

Module Presets.

Import LossFunctions.
Local Open Scope js_scope.

(** The fourth preset. *)
Definition SaddlePoint {F : Type} `{Arith F} : LossFunction F :=
  {| name := "Saddle Point";
     expression := "x^2 - y^2";
     fn := fun x y => x * x - y * y;
     range := ((#(-3), #3), (#(-3), #3));
     suggestedStart := (#2, #0.1) |}.

(** What [compiled.evaluate({ x, y })] can do: return a number, return
    something that is not of type number, or throw. *)
Inductive Evaluated : Type :=
| Value (v : float)
| NotNumber
| Thrown.

(** The part of mathjs the program uses, [math.compile]: [None] when it
    throws, the evaluator of the compiled expression otherwise. *)
Definition Compiler : Type := string -> option (float -> float -> Evaluated).

(** Safe evaluation using mathjs *)
Definition createLossFunction (compile : Compiler) (expression : string)
  : float -> float -> float :=
  match compile expression with
  | Some compiled =>
      fun x y =>
        match compiled x y with
        | Value result => if negb (is_finite result) then nan else result
        | NotNumber => nan
        | Thrown => nan
        end
  | None => fun _ _ => nan
  end.

End Presets.

(* ------------------------------------------------------------------------- *)
(** ** More of the page component *)

Module PageMore.

Import Optimizers LossFunctions Page.
Local Open Scope js_scope.

Section Derived.
Context {F : Type} `{Number F}.

(** [l[i]] for an index kept in a number: [undefined] outside the array. *)
Definition at_index (A : Type) (l : list A) (i : Z) : option A :=
  if (i <? 0)%Z then None else nth_error l (Z.to_nat i).

(** [path.length > 0 ? path[currentStepIndex] || path[path.length - 1] : null] *)
Definition currentStep (d : Driver F) : option (Step.OptimizerStep F) :=
  match path d with
  | [] => None
  | _ :: _ =>
      match at_index (path d) (currentStepIndex d) with
      | Some r => Some r
      | None => at_index (path d) (Z.of_nat (List.length (path d)) - 1)
      end
  end.

Definition setCurrentFunction (f : LossFunction F) (d : Driver F) : Driver F :=
  {| currentFunction := f;
     optimizerType := optimizerType d; optimizerParams := optimizerParams d;
     startX := startX d; startY := startY d;
     isRunning := isRunning d; path := path d;
     currentStepIndex := currentStepIndex d;
     optimizerStateRef := optimizerStateRef d |}.

(** Handle surface click *)
Definition handleSurfaceClick (x y : F) (d : Driver F) : Driver F :=
  handleReset (setStartY y (setStartX x d)).

(** The main button of the panel: [onClick={isRunning ? onPause : onStart}]. *)
Definition onClickRun (d : Driver F) : Driver F :=
  if isRunning d then handlePause d else handleStart d.

(** The step counter, the trajectory and the live state go together: the
    counter is the last index, and the live state, present exactly when the
    trajectory is not empty, sits where the last record is. *)
Definition synced (d : Driver F) : Prop :=
  currentStepIndex d = (Z.of_nat (List.length (path d)) - 1)%Z /\
  match optimizerStateRef d with
  | None => path d = []
  | Some s =>
      exists p r, path d = p ++ [r] /\ Step.x r = x s /\ Step.y r = y s
  end.

(** The position of a record, as a state without accumulators. *)
Definition position (r : Step.OptimizerStep F) : OptimizerState F :=
  {| x := Step.x r; y := Step.y r;
     vx := None; vy := None; sx := None; sy := None; t := None |}.

(** Every record after the first passed the bounds check. *)
Definition tailInside (d : Driver F) : Prop :=
  Forall (fun r => outOfBounds (position r) = false) (tl (path d)).

(** One action either appends at most one record or empties the
    trajectory. *)
Definition extendsOrClears (before after : list (Step.OptimizerStep F)) : Prop :=
  (exists more, after = before ++ more /\ List.length more <= 1) \/ after = [].

End Derived.

(** The state cells of the expression editor. *)
Record Editor : Type := {
  selectedPreset : string;
  customExpression : string;
  expressionError : option string
}.

Section Expressions.
Import Presets.
Variable compile : Compiler.
Variable presetFunctions : list (LossFunction float).

(** Handle custom expression change.  [createLossFunction] and the function
    it returns catch whatever is thrown, so the handler's own [catch] is never
    entered. *)
Definition handleCustomExpressionChange (expr : string) (s : Editor * Driver float)
  : Editor * Driver float :=
  let (e, d) := s in
  let fn := createLossFunction compile expr in
  let testResult := fn 0%float 0%float in
  if is_nan testResult then
    ({| selectedPreset := "custom"; customExpression := expr;
        expressionError := Some "Invalid expression" |}, d)
  else
    ({| selectedPreset := "custom"; customExpression := expr;
        expressionError := None |},
     setCurrentFunction
       {| name := "Custom";
          expression := expr;
          fn := fn;
          range := ((-5, 5), (-5, 5))%float;
          suggestedStart := (2, 2)%float |} d).

(** Handle preset change.  The table of presets is a parameter: its last
    entry calls [Math.cos]. *)
Definition handlePresetChange (preset : string) (s : Editor * Driver float)
  : Editor * Driver float :=
  let (e, d) := s in
  if String.eqb preset "custom" then
    ({| selectedPreset := preset; customExpression := customExpression e;
        expressionError := expressionError e |}, d)
  else
    match find (fun f => String.eqb (name f) preset) presetFunctions with
    | Some fn =>
        ({| selectedPreset := preset; customExpression := expression fn;
            expressionError := None |},
         handleReset
           (setStartY (snd (suggestedStart fn))
              (setStartX (fst (suggestedStart fn))
                 (setCurrentFunction fn d))))
    | None =>
        ({| selectedPreset := preset; customExpression := customExpression e;
            expressionError := expressionError e |}, d)
    end.

End Expressions.

End PageMore.

(* ------------------------------------------------------------------------- *)
(** ** components/surface-3d.tsx and components/control-panel.tsx *)

Module Surface3D.

Import Optimizers.
Local Open Scope js_scope.

Section Scene.
Context {F : Type} `{Number F}.

(** The height of a vertex of [LossSurface] (and of a cell of
    [ContourPlane]): clamp for visualization. *)
Definition surfaceHeight (lossFn : F -> F -> F) (x y : F) : F :=
  let z := lossFn x y in
  let z := if negb (isFinite z) then #0 else z in
  Math_min (Math_max z #(-50)) #50.

(** [l.slice(0, e)] *)
Definition slice0 (A : Type) (l : list A) (e : Z) : list A :=
  let len := Z.of_nat (List.length l) in
  let k := if (e <? 0)%Z then Z.max (len + e) 0 else Z.min e len in
  firstn (Z.to_nat k) l.

(** [OptimizerPath]: the records shown, and among them the ones drawn. *)
Definition visiblePath (path : list (Step.OptimizerStep F)) (currentStep : Z)
  : list (Step.OptimizerStep F) :=
  slice0 path (currentStep + 1).

Definition validStep (step : Step.OptimizerStep F) : bool :=
  isFinite (Step.x step) && isFinite (Step.y step) && isFinite (Step.z step).

Definition validPath (path : list (Step.OptimizerStep F)) (currentStep : Z)
  : list (Step.OptimizerStep F) :=
  filter validStep (visiblePath path currentStep).

(** The marker positions; the line through them is drawn from two on. *)
Definition markers (path : list (Step.OptimizerStep F)) (currentStep : Z)
  : list (F * F * F) :=
  map (fun step => (Step.x step, Step.y step, Step.z step + #0.1))
      (validPath path currentStep).

Definition lineGeometry (path : list (Step.OptimizerStep F)) (currentStep : Z)
  : option (list (F * F * F)) :=
  if (List.length (validPath path currentStep) <? 2)%nat then None
  else Some (markers path currentStep).

End Scene.

End Surface3D.

Module ControlPanel.

Local Open Scope float_scope.

(** [a || b] on numbers: NaN and the two zeros are falsy. *)
Definition orElse (a b : float) : float :=
  if is_nan a || PrimFloat.is_zero a then b else a.

(** The start-point inputs: [onStartXChange(Number.parseFloat(...) || 0)],
    where [parsed] is what [Number.parseFloat] made of the text. *)
Definition onChangeStartX (parsed : float) (d : Page.Driver float) : Page.Driver float :=
  Page.onStartXChange (orElse parsed 0) d.

Definition onChangeStartY (parsed : float) (d : Page.Driver float) : Page.Driver float :=
  Page.onStartYChange (orElse parsed 0) d.

End ControlPanel.

(* ------------------------------------------------------------------------- *)
(** ** Plain descent and momentum in exact arithmetic *)

Module Descent.

Import Optimizers LossFunctions.
Local Open Scope js_scope.

Section Loop.
Context {F : Type} `{Arith F}.

(** What a step of the page does to the live state under the tag "sgd", the
    halting checks apart: estimate the gradient where the state is, then
    apply the rule. *)
Definition sgdOnce (f : F -> F -> F) (params : OptimizerParams F)
           (s : OptimizerState F) : OptimizerState F :=
  sgdStep s (computeGradient f (x s) (y s) None) params.

Definition start (px py : F) : OptimizerState F :=
  {| x := px; y := py; vx := None; vy := None; sx := None; sy := None; t := None |}.

End Loop.

End Descent.

(* ------------------------------------------------------------------------- *)
(** ** The update rules *)

Section RuleFacts.

Import Optimizers.
Local Open Scope js_scope.
Context {F : Type} `{Number F}.

Lemma nullish_Some (a d : F) : Some a ?? d = a.
Proof. reflexivity. Qed.

Lemma nullish_None (d : F) : None ?? d = d.
Proof. reflexivity. Qed.

(** C8.  A tag that is none of "sgd", "momentum", "rmsprop", "adam" is
    dispatched to the plain-descent rule: [optimizerStep] returns exactly
    what [sgdStep] returns on the same state, gradient and parameters. *)
Theorem optimizerStep_unrecognized_tag :
  forall (type : OptimizerType) (state : OptimizerState F)
         (gradient : Gradient F) (params : OptimizerParams F),
    type <> "sgd" -> type <> "momentum" -> type <> "rmsprop" -> type <> "adam" ->
    optimizerStep type state gradient params = sgdStep state gradient params.
Proof.
  intros type state gradient params _ Hm Hr Ha.
  unfold optimizerStep.
  destruct (String.eqb_spec type "sgd"); [reflexivity|].
  destruct (String.eqb_spec type "momentum"); [contradiction|].
  destruct (String.eqb_spec type "rmsprop"); [contradiction|].
  destruct (String.eqb_spec type "adam"); [contradiction|].
  reflexivity.
Qed.

Lemma optimizerStep_tag (a : Algorithm) (state : OptimizerState F)
      (gradient : Gradient F) (params : OptimizerParams F) :
  optimizerStep (tag a) state gradient params =
  match a with
  | SGD => sgdStep state gradient params
  | Momentum => momentumStep state gradient params
  | RMSProp => rmspropStep state gradient params
  | Adam => adamStep state gradient params
  end.
Proof. destruct a; reflexivity. Qed.

(** C6.  RMSProp: on each axis the accumulator becomes
    [rho * s + (1 - rho) * g * g], where an absent [s] counts as 0 and an
    absent [rho] as 0.9 (the square of the gradient is the product the source
    writes, multiplied left to right); the position moves by
    [lr * g / (sqrt s' + epsilon)], an absent [epsilon] counting as 1e-8. *)
Theorem rmspropStep_formula :
  forall (state : OptimizerState F) (gradient : Gradient F) (params : OptimizerParams F),
    let rho_ := match rho params with Some r => r | None => #0.9 end in
    let eps_ := match epsilon params with Some e => e | None => #1e-8 end in
    let sx0 := match sx state with Some s => s | None => #0 end in
    let sy0 := match sy state with Some s => s | None => #0 end in
    let sx' := rho_ * sx0 + (#1 - rho_) * gradX gradient * gradX gradient in
    let sy' := rho_ * sy0 + (#1 - rho_) * gradY gradient * gradY gradient in
    sx (rmspropStep state gradient params) = Some sx' /\
    sy (rmspropStep state gradient params) = Some sy' /\
    x (rmspropStep state gradient params) =
      x state - (learningRate params * gradX gradient) / (Math_sqrt sx' + eps_) /\
    y (rmspropStep state gradient params) =
      y state - (learningRate params * gradY gradient) / (Math_sqrt sy' + eps_).
Proof.
  intros state gradient params.
  unfold rmspropStep, nullish; cbn.
  destruct (rho params), (epsilon params), (sx state), (sy state);
    repeat split; reflexivity.
Qed.

(** Every field of the Adam step but [y] is what the specification's rule
    gives; [y] is the one computed with the other denominator. *)
Lemma adamStep_agrees_off_y (state : OptimizerState F) (gradient : Gradient F)
      (params : OptimizerParams F) :
  let code := adamStep state gradient params in
  let spec := adamStep_spec state gradient params in
  x code = x spec /\ vx code = vx spec /\ vy code = vy spec /\
  sx code = sx spec /\ sy code = sy spec /\ t code = t spec.
Proof. repeat split; reflexivity. Qed.

Lemma adamStep_y (state : OptimizerState F) (gradient : Gradient F)
      (params : OptimizerParams F) :
  let b2 := beta2 params ?? #0.999 in
  let eps := epsilon params ?? #1e-8 in
  let t' := (t state ?? #0) + #1 in
  let vy' := (beta1 params ?? #0.9) * (vy state ?? #0)
             + (#1 - (beta1 params ?? #0.9)) * gradY gradient in
  let sy' := b2 * (sy state ?? #0) + (#1 - b2) * gradY gradient * gradY gradient in
  y (adamStep state gradient params) =
    y state - (learningRate params * (vy' / (#1 - Math_pow b2 t')))
              / (Math_sqrt (sy' / (#1 - Math_pow b2 t')) + eps).
Proof. reflexivity. Qed.

End RuleFacts.

(** The tag of a saved configuration that names no known algorithm. *)
Lemma optimizerStep_unrecognized_tag_witness :
  @Optimizers.optimizerStep float Runs.number64 "adagrad" (Runs.fresh 2.5 2.5)
     {| Optimizers.gradX := 5%float; Optimizers.gradY := 5%float |}
     (Optimizers.defaultParams Optimizers.SGD)
  = Optimizers.sgdStep (Runs.fresh 2.5 2.5)
     {| Optimizers.gradX := 5%float; Optimizers.gradY := 5%float |}
     (Optimizers.defaultParams Optimizers.SGD).
Proof.
  apply (@optimizerStep_unrecognized_tag float Runs.number64 "adagrad");
    intro E; discriminate E.
Defined.

(* ------------------------------------------------------------------------- *)
(** ** The trajectory handlers *)

Section DriverFacts.

Import Optimizers LossFunctions Page.
Local Open Scope js_scope.
Context {F : Type} `{Number F}.

(** [performStep] on an initialized component, through the named
    quantities. *)
Lemma performStep_initialized (d : Driver F) (state : OptimizerState F) :
  optimizerStateRef d = Some state ->
  performStep d =
  if converged d state then setIsRunning false d
  else if outOfBounds (candidate d state) then setIsRunning false d
  else
    {| currentFunction := currentFunction d; optimizerType := optimizerType d;
       optimizerParams := optimizerParams d; startX := startX d; startY := startY d;
       isRunning := isRunning d;
       path := path d ++ [recordAt d (candidate d state)];
       currentStepIndex := (currentStepIndex d + 1)%Z;
       optimizerStateRef := Some (candidate d state) |}.
Proof.
  intros E. unfold performStep. rewrite E. reflexivity.
Qed.

Lemma performStep_uninitialized (d : Driver F) :
  optimizerStateRef d = None -> performStep d = initializePath d.
Proof.
  intros E. unfold performStep. rewrite E. reflexivity.
Qed.

Lemma performStep_outcome (d : Driver F) (state : OptimizerState F) :
  optimizerStateRef d = Some state -> StepOutcome d state (performStep d).
Proof.
  intros E. rewrite (performStep_initialized d E).
  destruct (converged d state) eqn:Ec.
  - now apply Converged.
  - destruct (outOfBounds (candidate d state)) eqn:Eb.
    + now apply Diverged.
    + now apply Advanced.
Qed.

(** C3.  A step taken on an initialized component: when the gradient norm at
    the live position is below 1e-6 or not finite, the trajectory is kept as
    it is and the run flag is cleared; otherwise, when the candidate state has
    a coordinate beyond 100 in magnitude or not finite, the same; otherwise
    exactly one record, that of the candidate, is appended.  Hence the
    trajectory grows by one element exactly when neither halt condition
    holds. *)
Theorem performStep_appends_iff_no_halt :
  forall (d : Driver F) (state : OptimizerState F),
    optimizerStateRef d = Some state ->
    (converged d state = true ->
       path (performStep d) = path d /\ isRunning (performStep d) = false) /\
    (converged d state = false -> outOfBounds (candidate d state) = true ->
       path (performStep d) = path d /\ isRunning (performStep d) = false) /\
    (converged d state = false -> outOfBounds (candidate d state) = false ->
       path (performStep d) = path d ++ [recordAt d (candidate d state)]) /\
    (List.length (path (performStep d)) = S (List.length (path d)) <->
       converged d state = false /\ outOfBounds (candidate d state) = false).
Proof.
  intros d state E.
  destruct (performStep_outcome d E) as [Hc | Hc Hb | Hc Hb d' Hp Hs Hr];
    rewrite Hc; try rewrite Hb.
  - split; [intros _; split; reflexivity|].
    split; [intros X; discriminate X|].
    split; [intros X; discriminate X|].
    split; [cbn; intros L; lia | intros [X _]; discriminate X].
  - split; [intros X; discriminate X|].
    split; [intros _ _; split; reflexivity|].
    split; [intros _ X; discriminate X|].
    split; [cbn; intros L; lia | intros [_ X]; discriminate X].
  - split; [intros X; discriminate X|].
    split; [intros _ X; discriminate X|].
    split; [intros _ _; exact Hp|].
    split; [intros _; split; reflexivity|].
    intros _. rewrite Hp, length_app. cbn. lia.
Qed.

(** C9.  When a step rejects its candidate, the live optimizer state is the
    one from before the step and the trajectory is unchanged, so the next
    step computes the same candidate from the same state and rejects it
    again. *)
Theorem performStep_rejection_keeps_live_state :
  forall (d : Driver F) (state : OptimizerState F),
    optimizerStateRef d = Some state ->
    converged d state = false ->
    outOfBounds (candidate d state) = true ->
    optimizerStateRef (performStep d) = Some state /\
    path (performStep d) = path d /\
    candidate (performStep d) state = candidate d state /\
    performStep (performStep d) = performStep d.
Proof.
  intros d state E Hc Hb.
  assert (P : performStep d = setIsRunning false d).
  { rewrite (performStep_initialized d E), Hc, Hb. reflexivity. }
  rewrite P. repeat split; try assumption.
  assert (E' : optimizerStateRef (setIsRunning false d) = Some state) by exact E.
  rewrite (performStep_initialized _ E').
  change (converged (setIsRunning false d) state) with (converged d state).
  change (candidate (setIsRunning false d) state) with (candidate d state).
  rewrite Hc, Hb. reflexivity.
Qed.

(** *** Step indices *)

Lemma indexed_nil : indexed (F:=F) [].
Proof. reflexivity. Qed.

Lemma indexed_snoc (l : list (Step.OptimizerStep F)) (r : Step.OptimizerStep F) :
  indexed l -> Step.step r = List.length l -> indexed (l ++ [r]).
Proof.
  unfold indexed. intros I E.
  rewrite map_app, length_app, I. cbn [map List.length].
  rewrite Nat.add_1_r, seq_S, E. reflexivity.
Qed.

Lemma indexed_nth (l : list (Step.OptimizerStep F)) :
  indexed l -> forall i r, nth_error l i = Some r -> Step.step r = i.
Proof.
  unfold indexed. intros I i r E.
  apply (map_nth_error (@Step.step F)) in E.
  rewrite I in E.
  assert (L : i < List.length (seq 0 (List.length l))).
  { apply nth_error_Some. rewrite E. discriminate. }
  rewrite length_seq in L.
  rewrite nth_error_seq in E.
  destruct (Nat.ltb_spec i (List.length l)); [|lia].
  now injection E.
Qed.

Lemma initializePath_indexed (d : Driver F) : indexed (path (initializePath d)).
Proof. reflexivity. Qed.

Lemma performStep_indexed (d : Driver F) :
  indexed (path d) -> indexed (path (performStep d)).
Proof.
  intros I. destruct (optimizerStateRef d) as [state|] eqn:E.
  - destruct (performStep_outcome d E) as [ | | _ _ d' Hp _ _]; try exact I.
    rewrite Hp. now apply indexed_snoc.
  - rewrite (performStep_uninitialized d E). apply initializePath_indexed.
Qed.

Lemma act_indexed (a : Action F) (d : Driver F) :
  indexed (path d) -> indexed (path (act a d)).
Proof.
  intros I. destruct a; cbn [act]; try exact I; try apply indexed_nil.
  - now apply performStep_indexed.
  - unfold handleStart. destruct (path d) eqn:E.
    + exact (initializePath_indexed d).
    + change (indexed (path d)). rewrite E. exact I.
  - unfold handleStep. destruct (path d) eqn:E.
    + apply initializePath_indexed.
    + apply performStep_indexed. rewrite E. exact I.
Qed.

Lemma run_indexed (l : list (Action F)) (d : Driver F) :
  indexed (path d) -> indexed (path (run d l)).
Proof.
  revert d. induction l as [|a l IH]; intros d I; cbn.
  - exact I.
  - apply IH. now apply act_indexed.
Qed.

(** C5.  After an initialization followed by any sequence of steps (and of
    the other actions of the page), the record at index [i] of the trajectory
    carries [step = i]: the record the initialization makes is numbered 0,
    and the record a step appends is numbered with the length of the
    trajectory it is appended to. *)
Theorem trajectory_step_equals_index :
  forall (d0 : Driver F) (l : list (Action F)),
    let d := run (initializePath d0) l in
    (forall (i : nat) (r : Step.OptimizerStep F),
       nth_error (path d) i = Some r -> Step.step r = i) /\
    (exists r0 : Step.OptimizerStep F,
       path (initializePath d0) = [r0] /\ Step.step r0 = 0) /\
    (forall state : OptimizerState F,
       Step.step (recordAt d state) = List.length (path d)).
Proof.
  intros d0 l d. split; [|split].
  - apply indexed_nth, run_indexed, initializePath_indexed.
  - eexists. split; reflexivity.
  - reflexivity.
Qed.

(** The steps alone: [n] calls of [performStep] after [initializePath]. *)
Corollary steps_only_indexed (d0 : Driver F) (n : nat) :
  indexed (path (Nat.iter n performStep (initializePath d0))).
Proof.
  induction n as [|n IH]; cbn [Nat.iter].
  - apply initializePath_indexed.
  - now apply performStep_indexed.
Qed.

End DriverFacts.

(* ------------------------------------------------------------------------- *)
(** ** The first record and the clamped ones *)

Section DisplayFacts.

Import Optimizers LossFunctions Page.
Local Open Scope js_scope.
Context {F : Type} `{Number F}.

Lemma act_currentFunction (a : Action F) (d : Driver F) :
  currentFunction (act a d) = currentFunction d.
Proof.
  destruct a; cbn [act]; try reflexivity.
  - unfold performStep. destruct (optimizerStateRef d); [|reflexivity].
    repeat match goal with |- context [if ?b then _ else _] => destruct b end;
      reflexivity.
  - unfold handleStart. destruct (path d); reflexivity.
  - unfold handleStep. destruct (path d); [reflexivity|].
    unfold performStep. destruct (optimizerStateRef d); [|reflexivity].
    repeat match goal with |- context [if ?b then _ else _] => destruct b end;
      reflexivity.
Qed.

Lemma initializePath_headInitial (d : Driver F) : headInitial (initializePath d).
Proof. reflexivity. Qed.

Lemma performStep_headInitial (d : Driver F) :
  headInitial d -> headInitial (performStep d).
Proof.
  intros I. destruct (optimizerStateRef d) as [state|] eqn:E.
  - rewrite (performStep_initialized d E).
    destruct (converged d state); [exact I|].
    destruct (outOfBounds (candidate d state)); [exact I|].
    unfold headInitial in *. cbn [path optimizerStateRef].
    destruct (path d) as [|r0 l].
    + rewrite E in I. discriminate I.
    + exact I.
  - rewrite (performStep_uninitialized d E). apply initializePath_headInitial.
Qed.

Lemma act_headInitial (a : Action F) (d : Driver F) :
  headInitial d -> headInitial (act a d).
Proof.
  intros I. destruct a; cbn [act]; try exact I; try reflexivity.
  - now apply performStep_headInitial.
  - unfold handleStart. destruct (path d) eqn:E.
    + exact (initializePath_headInitial d).
    + exact I.
  - unfold handleStep. destruct (path d) eqn:E.
    + apply initializePath_headInitial.
    + now apply performStep_headInitial.
Qed.

Lemma run_headInitial (l : list (Action F)) (d : Driver F) :
  headInitial d -> headInitial (run d l).
Proof.
  revert d. induction l as [|a l IH]; intros d I; cbn.
  - exact I.
  - apply IH. now apply act_headInitial.
Qed.

Lemma initializePath_tailClamped (d : Driver F) : tailClamped (initializePath d).
Proof. constructor. Qed.

Lemma performStep_tailClamped (d : Driver F) :
  tailClamped d -> tailClamped (performStep d).
Proof.
  intros I. destruct (optimizerStateRef d) as [state|] eqn:E.
  - rewrite (performStep_initialized d E).
    destruct (converged d state); [exact I|].
    destruct (outOfBounds (candidate d state)); [exact I|].
    unfold tailClamped in *. cbn [path currentFunction].
    destruct (path d) as [|r0 l]; cbn [tl app] in *.
    + constructor.
    + apply Forall_app. split; [exact I|].
      constructor; [reflexivity | constructor].
  - rewrite (performStep_uninitialized d E). apply initializePath_tailClamped.
Qed.

Lemma act_tailClamped (a : Action F) (d : Driver F) :
  tailClamped d -> tailClamped (act a d).
Proof.
  intros I. destruct a; cbn [act]; try exact I; try (constructor; fail).
  - now apply performStep_tailClamped.
  - unfold handleStart. destruct (path d) eqn:E.
    + exact (initializePath_tailClamped d).
    + exact I.
  - unfold handleStep. destruct (path d) eqn:E.
    + apply initializePath_tailClamped.
    + now apply performStep_tailClamped.
Qed.

Lemma run_tailClamped (l : list (Action F)) (d : Driver F) :
  tailClamped d -> tailClamped (run d l).
Proof.
  revert d. induction l as [|a l IH]; intros d I; cbn.
  - exact I.
  - apply IH. now apply act_tailClamped.
Qed.

(** A record past the first is the clamp of the surface at its position. *)
Lemma later_record_clamped (d0 : Driver F) (l : list (Action F)) (i : nat)
      (r : Step.OptimizerStep F) :
  let d := run (initializePath d0) l in
  nth_error (path d) (S i) = Some r ->
  Step.z r = clampZ (fn (currentFunction d) (Step.x r) (Step.y r)).
Proof.
  intros d E.
  pose proof (run_tailClamped l (initializePath_tailClamped d0)) as T.
  fold d in T. unfold tailClamped in T. rewrite Forall_forall in T.
  apply T. destruct (path d) as [|r0 p]; [discriminate E|].
  cbn in *. eapply nth_error_In. exact E.
Qed.

(** The first record holds the raw value of the surface at the start point,
    or 0 when that value is not finite. *)
Lemma first_record_raw (d0 : Driver F) (l : list (Action F)) (r0 : Step.OptimizerStep F) :
  let d := run (initializePath d0) l in
  nth_error (path d) 0 = Some r0 ->
  Step.z r0 = initialZ d.
Proof.
  intros d E.
  pose proof (run_headInitial l _ (initializePath_headInitial d0)) as I.
  fold d in I. unfold headInitial in I.
  destruct (path d) as [|r p]; [discriminate E|].
  cbn in E. injection E as <-. exact I.
Qed.

End DisplayFacts.

(* ------------------------------------------------------------------------- *)
(** ** binary64: comparison, finiteness and the clamp *)

Module Binary64Facts.

Import Binary64.
Local Open Scope float_scope.

Lemma SFcompare_antisym (a b : spec_float) :
  SFcompare b a = option_map CompOpp (SFcompare a b).
Proof.
  destruct a as [sa|sa| |sa ma ea], b as [sb|sb| |sb mb eb]; cbn;
    try reflexivity; try (destruct sa; reflexivity); try (destruct sb; reflexivity);
    try (destruct sa, sb; reflexivity).
  destruct sa, sb; try reflexivity;
    rewrite (Z.compare_antisym ea eb); destruct (ea ?= eb)%Z; cbn; try reflexivity;
    repeat f_equal; symmetry; exact (Pos.compare_cont_antisym ma mb Eq).
Qed.

Lemma SFcompare_refl (a : spec_float) :
  sf_nan a = false -> SFcompare a a = Some Eq.
Proof.
  destruct a as [s|s| |s m e]; cbn; intros N; try discriminate N.
  - reflexivity.
  - destruct s; reflexivity.
  - rewrite Z.compare_refl, Pos.compare_cont_refl. destruct s; reflexivity.
Qed.

Lemma SFcompare_defined (a b : spec_float) :
  sf_nan a = false -> sf_nan b = false -> exists c, SFcompare a b = Some c.
Proof.
  destruct a, b; cbn; intros Na Nb; try discriminate; eauto.
Qed.

Lemma is_nan_spec (x : float) : is_nan x = sf_nan (Prim2SF x).
Proof.
  unfold is_nan. rewrite FloatAxioms.eqb_spec. unfold SFeqb.
  destruct (sf_nan (Prim2SF x)) eqn:N.
  - destruct (Prim2SF x); try discriminate N. reflexivity.
  - rewrite (@SFcompare_refl _ N). reflexivity.
Qed.

Lemma is_finite_spec (x : float) : is_finite x = sf_finite (Prim2SF x).
Proof.
  unfold is_finite, is_infinity.
  rewrite is_nan_spec, FloatAxioms.eqb_spec, FloatAxioms.abs_spec.
  change (Prim2SF infinity) with (S754_infinity false).
  destruct (Prim2SF x) as [s|s| |s m e]; reflexivity.
Qed.

Lemma is_finite_not_nan (x : float) : is_finite x = true -> is_nan x = false.
Proof.
  rewrite is_finite_spec, is_nan_spec. destruct (Prim2SF x); easy.
Qed.

Lemma ltb_false_leb (a b : float) :
  is_nan a = false -> is_nan b = false -> (a <? b) = false -> (b <=? a) = true.
Proof.
  rewrite !is_nan_spec, FloatAxioms.ltb_spec, FloatAxioms.leb_spec. unfold SFltb, SFleb.
  intros Na Nb. rewrite (SFcompare_antisym (Prim2SF a) (Prim2SF b)).
  destruct (@SFcompare_defined _ _ Na Nb) as [c ->].
  destruct c; cbn; easy.
Qed.

Lemma ltb_leb (a b : float) : (a <? b) = true -> (a <=? b) = true.
Proof.
  rewrite FloatAxioms.ltb_spec, FloatAxioms.leb_spec. unfold SFltb, SFleb.
  destruct (SFcompare (Prim2SF a) (Prim2SF b)) as [[| |]|]; easy.
Qed.

(** A difference or a quotient is finite only if what goes into it is. *)
Lemma SFsub_finite (a b : spec_float) :
  sf_finite (SFsub prec emax a b) = true -> sf_finite a = true /\ sf_finite b = true.
Proof.
  destruct a as [sa|sa| |sa ma ea], b as [sb|sb| |sb mb eb];
    try (intros _; split; reflexivity);
    cbn; try discriminate; try (destruct sa, sb; discriminate).
Qed.

Lemma SFdiv_finite (a b : spec_float) :
  sf_finite (SFdiv prec emax a b) = true -> sf_finite a = true.
Proof.
  destruct a as [sa|sa| |sa ma ea], b as [sb|sb| |sb mb eb];
    try (intros _; reflexivity);
    cbn; try discriminate.
Qed.

Lemma sub_finite (a b : float) :
  is_finite (a - b) = true -> is_finite a = true /\ is_finite b = true.
Proof. rewrite !is_finite_spec, FloatAxioms.sub_spec. apply SFsub_finite. Qed.

Lemma div_finite (a b : float) : is_finite (a / b) = true -> is_finite a = true.
Proof. rewrite !is_finite_spec, FloatAxioms.div_spec. apply SFdiv_finite. Qed.

Lemma difference_quotient_not_finite (a b c : float) :
  is_finite a = false \/ is_finite b = false -> is_finite ((a - b) / c) = false.
Proof.
  intros N. destruct (is_finite ((a - b) / c)) eqn:E; [|reflexivity].
  apply div_finite, sub_finite in E. destruct E as [Ea Eb].
  destruct N as [N|N]; congruence.
Qed.

(** [Math.min(Math.max(z, -50), 50)] lies in the display interval. *)
Lemma min_max_in_range (z : float) :
  is_nan z = false -> inDisplayRange (min (max z (-50)) 50) = true.
Proof.
  intros N. unfold max. rewrite N.
  change (is_nan (-50)) with false. cbn [orb].
  assert (K : forall m, is_nan m = false -> (-50 <=? m) = true ->
                        inDisplayRange (min m 50) = true).
  { intros m Nm Lm. unfold min. rewrite Nm. change (is_nan 50) with false. cbn [orb].
    unfold inDisplayRange.
    destruct (m <? 50) eqn:A.
    - rewrite Lm, (@ltb_leb _ _ A). reflexivity.
    - destruct (50 <? m) eqn:B; [reflexivity|].
      destruct (get_sign m); [|reflexivity].
      rewrite Lm. apply (@ltb_false_leb 50 m) in B; auto. }
  destruct (z <? -50) eqn:A.
  - reflexivity.
  - destruct (-50 <? z) eqn:B.
    + apply K; [exact N | now apply ltb_leb].
    + destruct (get_sign z); [reflexivity|].
      apply K; [exact N|]. now apply ltb_false_leb.
Qed.

Lemma clampZ_in_range (pow : float -> float -> float) (z : float) :
  inDisplayRange (@Page.clampZ float (number pow) z) = true.
Proof.
  unfold Page.clampZ. cbn [isFinite Math_min Math_max number].
  destruct (is_finite z) eqn:Fz; [|reflexivity].
  apply min_max_in_range, is_finite_not_nan, Fz.
Qed.

End Binary64Facts.

(* ------------------------------------------------------------------------- *)
(** ** The gradient estimator *)

Section EstimatorFacts.

Import Optimizers LossFunctions.
Local Open Scope js_scope.

(** C4.  With the fourth argument left out, the estimator returns the two
    central difference quotients at [h = 1e-5], for every function and point
    and in every number system.  It has no guard: on binary64, a sample of
    [f] that is not finite makes the component it enters not finite. *)
Theorem computeGradient_central_difference :
  (forall (F : Type) (A : Arith F) (f : F -> F -> F) (x y : F),
     computeGradient f x y None =
     {| gradX := (f (x + #1e-5) y - f (x - #1e-5) y) / (#2 * #1e-5);
        gradY := (f x (y + #1e-5) - f x (y - #1e-5)) / (#2 * #1e-5) |}) /\
  (forall (f : float -> float -> float) (x y : float),
     (is_finite (f (x + #1e-5) y) = false \/ is_finite (f (x - #1e-5) y) = false ->
      is_finite (gradX (computeGradient f x y None)) = false) /\
     (is_finite (f x (y + #1e-5)) = false \/ is_finite (f x (y - #1e-5)) = false ->
      is_finite (gradY (computeGradient f x y None)) = false)).
Proof.
  split.
  - reflexivity.
  - intros f x y. split; intros N;
      apply Binary64Facts.difference_quotient_not_finite; exact N.
Qed.

(** On the quadratic bowl the central difference is exact: the estimate is
    the gradient (2x, 2y) itself. *)
Lemma computeGradient_bowl_exact (x y : R) :
  computeGradient (fn QuadraticBowl) x y None =
  {| gradX := (2 * x)%R; gradY := (2 * y)%R |}.
Proof.
  unfold computeGradient, QuadraticBowl, nullish; cbn.
  unfold Q2R; cbn. f_equal; field.
Qed.

(** C7.  In exact arithmetic, the estimated gradient of the quadratic bowl at
    (2.5, 2.5) is (5, 5), and one plain-descent step with learning rate 0.1
    from there lands on (2, 2). *)
Theorem sgd_step_on_bowl_exact :
  let start : OptimizerState R :=
    {| x := #2.5; y := #2.5; vx := None; vy := None; sx := None; sy := None; t := None |} in
  let gradient := computeGradient (fn QuadraticBowl) (x start) (y start) None in
  gradient = {| gradX := 5%R; gradY := 5%R |} /\
  learningRate (defaultParams (F:=R) SGD) = #0.1 /\
  sgdStep start gradient (defaultParams SGD) =
  {| x := 2%R; y := 2%R; vx := None; vy := None; sx := None; sy := None; t := None |}.
Proof.
  intros start gradient. unfold gradient, start.
  cbn [x y]. rewrite computeGradient_bowl_exact.
  split; [|split].
  - f_equal; cbn; unfold Q2R; cbn; field.
  - reflexivity.
  - unfold sgdStep; cbn. unfold Q2R; cbn. f_equal; field.
Qed.

End EstimatorFacts.

(** A surface that is NaN everywhere has a gradient that is not finite. *)
Lemma computeGradient_central_difference_witness :
  is_finite
    (Optimizers.gradX
       (Optimizers.computeGradient (LossFunctions.fn Runs.undefinedSurface)
                                   2.5%float 2.5%float None)) = false.
Proof.
  apply (proj1 (proj2 computeGradient_central_difference
                      (LossFunctions.fn Runs.undefinedSurface) 2.5%float 2.5%float)).
  left. reflexivity.
Defined.

(* ------------------------------------------------------------------------- *)
(** ** The program on binary64 *)

Section OnBinary64.

Import Optimizers LossFunctions Page Binary64.
Local Open Scope float_scope.

(** C10.  On binary64, whatever [Math.pow] is: every record of a trajectory
    at an index of 1 or more carries the clamp of the surface value at its
    own position (0 when that value is not finite), which lies in [-50, 50];
    the record at index 0 carries the surface value at the start point as it
    is whenever that value is finite.  The bowl started at (10, 10) has a
    first record with z = 200, outside the interval. *)
Theorem display_clamp_skips_first_record :
  (forall pow : float -> float -> float,
     (forall (d0 : Driver float) (l : list (Action float)) (i : nat)
             (r : Step.OptimizerStep float),
        let d := @run float (number pow) (@initializePath float (number pow) d0) l in
        nth_error (path d) (S i) = Some r ->
        Step.z r =
          @clampZ float (number pow) (fn (currentFunction d) (Step.x r) (Step.y r)) /\
        inDisplayRange (Step.z r) = true) /\
     (forall (d0 : Driver float) (l : list (Action float))
             (r0 : Step.OptimizerStep float),
        let d := @run float (number pow) (@initializePath float (number pow) d0) l in
        nth_error (path d) 0 = Some r0 ->
        is_finite (fn (currentFunction d) (startX d) (startY d)) = true ->
        Step.z r0 = fn (currentFunction d) (startX d) (startY d))) /\
  (exists r0 : Step.OptimizerStep float,
     nth_error (path Runs.high) 0 = Some r0 /\
     Step.z r0 = fn (currentFunction Runs.high) (startX Runs.high) (startY Runs.high) /\
     Step.z r0 = 200 /\
     inDisplayRange (Step.z r0) = false).
Proof.
  split.
  - intros pow. split.
    + intros d0 l i r d E.
      pose proof (@later_record_clamped float (number pow) d0 l i r E) as C.
      fold d in C. split; [exact C|].
      rewrite C. apply Binary64Facts.clampZ_in_range.
    + intros d0 l r0 d E Fz.
      pose proof (@first_record_raw float (number pow) d0 l r0 E) as C.
      fold d in C. rewrite C. unfold initialZ.
      cbn [isFinite number]. rewrite Fz. reflexivity.
  - eexists. split; [reflexivity|]. repeat split; reflexivity.
Qed.

(** C1 (the code departs from it).  One Adam step with the default
    parameters from (2.5, 2.5) under the gradient (5, 5), which is the same on
    both axes: the rule of the specification moves x and y alike, to about
    2.4; [adamStep] moves x there and y to about -7.5, because its [y]
    first-moment correction divides by [1 - beta2^t] where the [x] one divides
    by [1 - beta1^t]. *)
Theorem adamStep_y_first_moment_divides_by_beta2 :
  let state := Runs.fresh 2.5 2.5 in
  let gradient := {| gradX := 5; gradY := 5 |} in
  let params := @defaultParams float _ Adam in
  let code := @adamStep float Runs.number64 state gradient params in
  let spec := @adamStep_spec float Runs.number64 state gradient params in
  Optimizers.x code = Optimizers.x spec /\
  Optimizers.y spec = Optimizers.x spec /\
  (2.375 <? Optimizers.y spec) && (Optimizers.y spec <? 2.5) = true /\
  (-7.5 <? Optimizers.y code) && (Optimizers.y code <? -7.375) = true /\
  Optimizers.y code <> Optimizers.y spec.
Proof.
  cbv zeta. repeat split; try (vm_compute; reflexivity).
  intros E. apply (f_equal (fun v => v <? 0)) in E.
  vm_compute in E. discriminate E.
Qed.

(** The same step on binary64 lands next to (2, 2), not on it: the central
    difference is rounded. *)
Remark sgd_step_on_bowl_binary64 :
  let start := Runs.fresh 2.5 2.5 in
  let gradient := computeGradient (fn QuadraticBowl) 2.5 2.5 None in
  let next := sgdStep start gradient (defaultParams SGD) in
  Optimizers.y next = Optimizers.x next /\
  (2 <? Optimizers.x next) && (Optimizers.x next <? 2.0009765625) = true.
Proof. cbv zeta. split; vm_compute; reflexivity. Qed.

(** The algorithm selector leaves the live optimizer state alone. *)
Lemma onValueChange_keeps_live_state (F : Type) (N : Number F) (v : Algorithm)
      (d : Driver F) :
  optimizerStateRef (onValueChange v d) = optimizerStateRef d /\
  path (onValueChange v d) = path d.
Proof. split; reflexivity. Qed.

(** C2 (the code departs from it).  After one Adam step on the first render,
    selecting SGD and then Adam again leaves the live state as the Adam step
    made it, timestep 1 included, and the next Adam step counts 2.  Selecting
    Momentum instead makes the first momentum step start from the velocity
    Adam left, not from 0. *)
Theorem algorithm_switch_keeps_optimizer_state :
  let afterAdam := Runs.play [Tick] in
  let back := Runs.play [Tick; SelectAlgorithm SGD; SelectAlgorithm Adam] in
  let toMomentum := Runs.play [Tick; SelectAlgorithm Momentum] in
  optimizerStateRef back = optimizerStateRef afterAdam /\
  t (Runs.live back) = Some 1 /\
  t (Runs.live (@performStep float Runs.number64 back)) = Some 2 /\
  optimizerType toMomentum = "momentum" /\
  vx (Runs.live toMomentum) = vx (Runs.live afterAdam) /\
  (exists v : float, vx (Runs.live toMomentum) = Some v /\ (0.25 <? v) = true) /\
  Runs.live (@performStep float Runs.number64 toMomentum) =
    momentumStep (Runs.live toMomentum)
                 (@gradientAt float Runs.number64 toMomentum (Runs.live toMomentum))
                 (defaultParams Momentum).
Proof.
  cbv zeta. repeat split; try (vm_compute; reflexivity).
  eexists. split; vm_compute; reflexivity.
Qed.

End OnBinary64.

(** The first step of the first render: neither halt condition holds and the
    trajectory grows by one record. *)
Lemma performStep_appends_iff_no_halt_witness :
  List.length (Page.path (@Page.performStep float Runs.number64 Runs.ready)) =
    S (List.length (Page.path Runs.ready)) <->
  @Page.converged float Runs.number64 Runs.ready (Runs.fresh 2.5 2.5) = false /\
  @Page.outOfBounds float Runs.number64
    (@Page.candidate float Runs.number64 Runs.ready (Runs.fresh 2.5 2.5)) = false.
Proof.
  apply (@performStep_appends_iff_no_halt float Runs.number64 Runs.ready
           (Runs.fresh 2.5 2.5)).
  vm_compute. reflexivity.
Defined.

(** Plain descent with learning rate 100: the candidate (-497.5, -497.5) is
    rejected and the live state stays at (2.5, 2.5). *)
Lemma performStep_rejection_keeps_live_state_witness :
  Page.optimizerStateRef (@Page.performStep float Runs.number64 Runs.steep) =
    Some (Runs.fresh 2.5 2.5) /\
  Page.path (@Page.performStep float Runs.number64 Runs.steep) = Page.path Runs.steep /\
  @Page.candidate float Runs.number64
    (@Page.performStep float Runs.number64 Runs.steep) (Runs.fresh 2.5 2.5) =
    @Page.candidate float Runs.number64 Runs.steep (Runs.fresh 2.5 2.5) /\
  @Page.performStep float Runs.number64 (@Page.performStep float Runs.number64 Runs.steep) =
    @Page.performStep float Runs.number64 Runs.steep.
Proof.
  apply (@performStep_rejection_keeps_live_state float Runs.number64 Runs.steep
           (Runs.fresh 2.5 2.5)); vm_compute; reflexivity.
Defined.

(** Two steps after the initialization: the third record is numbered 2. *)
Lemma trajectory_step_equals_index_witness :
  exists r : Optimizers.Step.OptimizerStep float,
    nth_error (Page.path (Runs.play [Page.Tick; Page.Tick])) 2 = Some r /\
    Optimizers.Step.step r = 2.
Proof.
  eexists. split.
  - vm_compute. reflexivity.
  - apply (proj1 (@trajectory_step_equals_index float Runs.number64 Runs.page0
                    [Page.Tick; Page.Tick]) 2).
    vm_compute. reflexivity.
Defined.

(** The record of the first Adam step on the first render: the surface is
    about 62 high there and the record says 50. *)
Lemma display_clamp_skips_first_record_witness :
  exists r : Optimizers.Step.OptimizerStep float,
    nth_error (Page.path (Runs.play [Page.Tick])) 1 = Some r /\
    Binary64.inDisplayRange (Optimizers.Step.z r) = true.
Proof.
  eexists. split.
  - vm_compute. reflexivity.
  - apply (proj1 (proj1 display_clamp_skips_first_record Binary64.powi)
                 Runs.page0 [Page.Tick] 0).
    vm_compute. reflexivity.
Defined.

(* ------------------------------------------------------------------------- *)
(** ** Counter, trajectory and live state together *)

Section SyncFacts.

Import Optimizers LossFunctions Page PageMore.
Local Open Scope js_scope.
Context {F : Type} `{Number F}.

Lemma initializePath_synced (d : Driver F) : synced (initializePath d).
Proof.
  split; [reflexivity|]. cbn [optimizerStateRef initializePath].
  eexists [], _. repeat split; reflexivity.
Qed.

Lemma handleReset_synced (d : Driver F) : synced (handleReset d).
Proof. split; reflexivity. Qed.

Lemma initial_synced : synced (@initial F _).
Proof. split; reflexivity. Qed.

Lemma synced_empty (d : Driver F) :
  synced d -> (optimizerStateRef d = None <-> path d = []).
Proof.
  intros [_ L]. destruct (optimizerStateRef d) as [s|].
  - destruct L as (p & r & E & _). split; [discriminate|].
    rewrite E. intros X. now destruct p.
  - now split.
Qed.

Lemma performStep_synced (d : Driver F) : synced d -> synced (performStep d).
Proof.
  intros I. destruct (optimizerStateRef d) as [state|] eqn:E.
  - rewrite (performStep_initialized d E).
    destruct (converged d state); [exact I|].
    destruct (outOfBounds (candidate d state)); [exact I|].
    destruct I as [Ix _]. split; cbn [currentStepIndex path optimizerStateRef].
    + rewrite Ix, length_app. cbn [List.length]. lia.
    + exists (path d), (recordAt d (candidate d state)). repeat split; reflexivity.
  - rewrite (performStep_uninitialized d E). apply initializePath_synced.
Qed.

Lemma act_synced (a : Action F) (d : Driver F) : synced d -> synced (act a d).
Proof.
  intros I. destruct a; cbn [act]; try exact I; try apply handleReset_synced.
  - now apply performStep_synced.
  - unfold handleStart. destruct (path d) eqn:E.
    + exact (initializePath_synced d).
    + exact I.
  - unfold handleStep. destruct (path d) eqn:E.
    + apply initializePath_synced.
    + now apply performStep_synced.
Qed.

Lemma run_synced (l : list (Action F)) (d : Driver F) : synced d -> synced (run d l).
Proof.
  revert d. induction l as [|a l IH]; intros d I; cbn.
  - exact I.
  - apply IH. now apply act_synced.
Qed.

Lemma at_index_last (A : Type) (p : list A) (r : A) :
  at_index (p ++ [r]) (Z.of_nat (List.length (p ++ [r])) - 1) = Some r.
Proof.
  unfold at_index. rewrite length_app. cbn [List.length].
  destruct (Z.ltb_spec (Z.of_nat (List.length p + 1) - 1) 0); [lia|].
  replace (Z.to_nat (Z.of_nat (List.length p + 1) - 1)) with (List.length p) by lia.
  rewrite nth_error_app2, Nat.sub_diag by lia. reflexivity.
Qed.

(** X1.  From a synced component and through any actions, the step counter
    is the last index of the trajectory (-1 when it is empty), and the record
    the panel displays is the last one, none when the trajectory is empty. *)
Theorem counter_is_last_index :
  forall (d0 : Driver F) (l : list (Action F)),
    synced d0 ->
    let d := run d0 l in
    currentStepIndex d = (Z.of_nat (List.length (path d)) - 1)%Z /\
    (path d = [] -> currentStep d = None) /\
    (forall p r, path d = p ++ [r] -> currentStep d = Some r).
Proof.
  intros d0 l I d. pose proof (run_synced l I) as [Ix _]. fold d in Ix.
  split; [exact Ix|]. split.
  - intros E. unfold currentStep. now rewrite E.
  - intros p r E. unfold currentStep. rewrite Ix, E.
    rewrite at_index_last. now destruct p.
Qed.

(** X2.  From a synced component and through any actions, there is a live
    optimizer state exactly when the trajectory is not empty, and its
    position is that of the last record. *)
Theorem live_state_is_last_record :
  forall (d0 : Driver F) (l : list (Action F)),
    synced d0 ->
    let d := run d0 l in
    (optimizerStateRef d = None <-> path d = []) /\
    (forall s, optimizerStateRef d = Some s ->
       exists p r, path d = p ++ [r] /\ Step.x r = x s /\ Step.y r = y s).
Proof.
  intros d0 l I d. pose proof (run_synced l I) as S. fold d in S.
  split; [now apply synced_empty|].
  intros s E. destruct S as [_ L]. now rewrite E in L.
Qed.

(** X3.  On a synced component an action either leaves the trajectory as a
    prefix of the new one, with at most one record appended, or empties it:
    no record is ever rewritten or dropped alone. *)
Theorem trajectory_append_only :
  forall (d : Driver F) (a : Action F),
    synced d -> extendsOrClears (path d) (path (act a d)).
Proof.
  intros d a I.
  assert (Same : extendsOrClears (path d) (path d)).
  { left. exists []. split; [now rewrite app_nil_r | cbn; lia]. }
  assert (Init : path d = [] -> extendsOrClears (path d) (path (initializePath d))).
  { intros E. left. rewrite E. eexists. split; [reflexivity|]. cbn. lia. }
  assert (Step : extendsOrClears (path d) (path (performStep d))).
  { destruct (optimizerStateRef d) as [state|] eqn:E.
    - rewrite (performStep_initialized d E).
      destruct (converged d state); [exact Same|].
      destruct (outOfBounds (candidate d state)); [exact Same|].
      left. eexists. split; [reflexivity|]. cbn. lia.
    - rewrite (performStep_uninitialized d E).
      apply Init. now apply synced_empty. }
  destruct a; cbn [act]; try exact Same; try (right; reflexivity).
  - exact Step.
  - unfold handleStart. destruct (path d) eqn:E.
    + exact (Init eq_refl).
    + cbn [path setIsRunning]. rewrite E. exact Same.
  - unfold handleStep. destruct (path d) eqn:E.
    + exact (Init eq_refl).
    + exact Step.
Qed.

(** X4.  A step on an initialized component that appends nothing has only
    cleared the run flag: the live state is the one from before, and taking
    the step again changes nothing more. *)
Theorem halted_step_is_idempotent :
  forall (d : Driver F) (state : OptimizerState F),
    optimizerStateRef d = Some state ->
    path (performStep d) = path d ->
    performStep d = setIsRunning false d /\
    optimizerStateRef (performStep d) = Some state /\
    performStep (performStep d) = performStep d.
Proof.
  intros d state E P.
  assert (Q : performStep d = setIsRunning false d).
  { rewrite (performStep_initialized d E) in *.
    destruct (converged d state); [reflexivity|].
    destruct (outOfBounds (candidate d state)); [reflexivity|].
    cbn [path] in P. apply (f_equal (@List.length _)) in P.
    rewrite length_app in P. cbn in P. lia. }
  rewrite Q. repeat split; [exact E|].
  assert (E' : optimizerStateRef (setIsRunning false d) = Some state) by exact E.
  rewrite (performStep_initialized _ E').
  change (converged (setIsRunning false d) state) with (converged d state).
  change (candidate (setIsRunning false d) state) with (candidate d state).
  rewrite (performStep_initialized d E) in Q.
  destruct (converged d state); [reflexivity|].
  destruct (outOfBounds (candidate d state)); [reflexivity|].
  apply (f_equal path) in Q. cbn [path setIsRunning] in Q.
  apply (f_equal (@List.length _)) in Q. rewrite length_app in Q. cbn in Q. lia.
Qed.

(** X5.  After a reset, a change of a start coordinate or a click on the
    surface, each way of advancing (the step button, the start button, a
    tick of the animation) begins a new trajectory: one record, numbered 0,
    at the start point then current, and a live state there without
    velocity, accumulator or timestep. *)
Theorem reset_then_advance_reinitializes :
  forall (d : Driver F) (px py : F),
    let begins (d' : Driver F) (sx0 sy0 : F) :=
      handleStep d' = initializePath d' /\
      performStep d' = initializePath d' /\
      handleStart d' = setIsRunning true (initializePath d') /\
      optimizerStateRef (initializePath d') =
        Some {| x := sx0; y := sy0;
                vx := None; vy := None; sx := None; sy := None; t := None |} /\
      exists r0, path (initializePath d') = [r0] /\
                 Step.x r0 = sx0 /\ Step.y r0 = sy0 /\ Step.step r0 = 0 in
    begins (handleReset d) (startX d) (startY d) /\
    begins (onStartXChange px d) px (startY d) /\
    begins (onStartYChange py d) (startX d) py /\
    begins (handleSurfaceClick px py d) px py.
Proof.
  intros d px py begins. unfold begins.
  repeat split; try reflexivity; eexists; repeat split; reflexivity.
Qed.

(** X6.  Which optional fields a step returns depends on the tag alone: a
    timestep only under "adam", accumulators only under "rmsprop" and "adam",
    a velocity only under "momentum" and "adam", whatever the incoming state
    carried. *)
Theorem optimizerStep_fields_by_tag :
  forall (type : OptimizerType) (state : OptimizerState F)
         (gradient : Gradient F) (params : OptimizerParams F),
    let next := optimizerStep type state gradient params in
    (t next <> None <-> type = "adam") /\
    (sx next <> None <-> type = "rmsprop" \/ type = "adam") /\
    (sy next <> None <-> type = "rmsprop" \/ type = "adam") /\
    (vx next <> None <-> type = "momentum" \/ type = "adam") /\
    (vy next <> None <-> type = "momentum" \/ type = "adam").
Proof.
  intros type state gradient params next. unfold next, optimizerStep.
  destruct (String.eqb_spec type "sgd") as [->|N1].
  { cbn. repeat split; try tauto; try discriminate; intros [X|X]; discriminate X. }
  destruct (String.eqb_spec type "momentum") as [->|N2].
  { cbn. repeat split; try tauto; try discriminate; try (intros; discriminate);
      intros [X|X]; discriminate X. }
  destruct (String.eqb_spec type "rmsprop") as [->|N3].
  { cbn. repeat split; try tauto; try discriminate; try (intros; discriminate);
      intros [X|X]; discriminate X. }
  destruct (String.eqb_spec type "adam") as [->|N4].
  { cbn. repeat split; try tauto; try discriminate; intros; discriminate. }
  cbn. repeat split; try tauto; try contradiction; intros [X|X]; contradiction.
Qed.

End SyncFacts.

(* ------------------------------------------------------------------------- *)
(** ** Records that passed the bounds check *)

Section InsideFacts.

Import Optimizers LossFunctions Page PageMore.
Local Open Scope js_scope.
Context {F : Type} `{Number F}.

Lemma initializePath_tailInside (d : Driver F) : tailInside (initializePath d).
Proof. constructor. Qed.

Lemma performStep_tailInside (d : Driver F) :
  tailInside d -> tailInside (performStep d).
Proof.
  intros I. destruct (optimizerStateRef d) as [state|] eqn:E.
  - rewrite (performStep_initialized d E).
    destruct (converged d state); [exact I|].
    destruct (outOfBounds (candidate d state)) eqn:B; [exact I|].
    unfold tailInside in *. cbn [path].
    destruct (path d) as [|r0 l]; cbn [tl app] in *.
    + constructor.
    + apply Forall_app. split; [exact I|].
      constructor; [exact B | constructor].
  - rewrite (performStep_uninitialized d E). apply initializePath_tailInside.
Qed.

Lemma act_tailInside (a : Action F) (d : Driver F) :
  tailInside d -> tailInside (act a d).
Proof.
  intros I. destruct a; cbn [act]; try exact I; try (constructor; fail).
  - now apply performStep_tailInside.
  - unfold handleStart. destruct (path d) eqn:E.
    + exact (initializePath_tailInside d).
    + exact I.
  - unfold handleStep. destruct (path d) eqn:E.
    + apply initializePath_tailInside.
    + now apply performStep_tailInside.
Qed.

Lemma run_tailInside (l : list (Action F)) (d : Driver F) :
  tailInside d -> tailInside (run d l).
Proof.
  revert d. induction l as [|a l IH]; intros d I; cbn.
  - exact I.
  - apply IH. now apply act_tailInside.
Qed.

Lemma later_record_inside (d0 : Driver F) (l : list (Action F)) (i : nat)
      (r : Step.OptimizerStep F) :
  nth_error (path (run (initializePath d0) l)) (S i) = Some r ->
  outOfBounds (position r) = false.
Proof.
  intros E.
  pose proof (run_tailInside l (initializePath_tailInside d0)) as T.
  unfold tailInside in T. rewrite Forall_forall in T.
  apply T. destruct (path (run (initializePath d0) l)) as [|r0 p]; [discriminate E|].
  cbn in *. eapply nth_error_In. exact E.
Qed.

End InsideFacts.
